(** * CodeCraftHub user-management service: the account controller

    A shallow embedding of [controllers/userController.js]
    ([registerUser], [loginUser]) and of the fallback registration route
    of [app.js], together with the properties of the service's written
    specification that can be stated over them.

    The controller is a thin orchestration of three third-party modules
    (bcrypt, mongoose, jsonwebtoken).  Their behaviour is not part of the
    repository; it enters the development as a [platform] record of
    outcome functions, over which every theorem is universally
    quantified, and which the examples instantiate with a small
    executable platform. *)

From Stdlib Require Import ZArith String Ascii List Bool Lia.
From stdpp Require Import base decidable option list strings gmap fin_maps.

Local Open Scope Z_scope.
Local Open Scope string_scope.

(** ** JavaScript values that flow through the handlers *)

Inductive jsval : Type :=
  | VUndefined
  | VNull
  | VBool (b : bool)
  | VNum (n : Z)
  | VStr (s : string)
  | VObjectId (n : N).

#[global] Instance jsval_eq_dec : EqDecision jsval.
Proof. solve_decision. Defined.

(** ECMAScript [ToBoolean], as used by [!x] and [x || y]. *)
Definition truthy (v : jsval) : bool :=
  match v with
  | VUndefined | VNull => false
  | VBool b => b
  | VNum n => negb (Z.eqb n 0)
  | VStr s => negb (String.eqb s "")
  | VObjectId _ => true
  end.

(** [a || b] on values. *)
Definition js_or (a b : jsval) : jsval := if truthy a then a else b.

(** ** Requests and responses *)

(** [req.body] as the routes see it.  Both [config/server.js] and [app.js]
    install the JSON body parser ahead of the routes, so the body is an
    object, possibly empty.  Nested objects and arrays as field values are
    left out of [jsval]. *)
Record request : Type := mkRequest { body : gmap string jsval }.

(** [const { k } = req.body]: a key that is not there reads [undefined]. *)
Definition field (req : request) (k : string) : jsval :=
  default VUndefined (body req !! k).

(** A signed token, before its compact serialisation: the claims that were
    signed and the key they were signed with. *)
Record jwt : Type := mkJwt {
  jwt_claims : gmap string jsval;
  jwt_key : string
}.

(** The JSON bodies the handlers send. *)
Inductive json_body : Type :=
  | JMessage (message : string)
  | JError (error : string)
  | JToken (token : jwt)
  | JDemoMissing (message : string) (required : list string)
                 (received : gset string)
  | JDemoRegistered (message : string) (id : Z) (username email : jsval)
                    (createdAt : Z) (note : string).

Record response : Type := mkResponse { status : Z; json : json_body }.

(** ** The users collection *)

(** Modelled from the spec: [models/userModel.js], the mongoose schema of
    [User], is not among the sources.  The spec gives a stored record an
    identifier assigned on creation, [username], [email], the password
    hash (the [password] path the controller writes and reads) and
    [role]. *)
Record user : Type := mkUser {
  _id : N;
  doc_username : jsval;
  doc_email : jsval;
  doc_password : jsval;
  doc_role : jsval
}.

#[global] Instance user_eq_dec : EqDecision user.
Proof. solve_decision. Defined.

(** Modelled from the spec: the [role] path of the missing schema is an
    enumerated value from student, instructor, admin and defaults to
    student. *)
Definition role_enum : list jsval :=
  [VStr "student"; VStr "instructor"; VStr "admin"].

Definition role_default : jsval := VStr "student".

(** [new User(fields)]: paths that are missing or [undefined] in [fields]
    take the schema default, which only [role] has. *)
Definition set_path (fields : gmap string jsval) (k : string)
    (dflt : jsval) : jsval :=
  match fields !! k with
  | Some VUndefined | None => dflt
  | Some v => v
  end.

Definition User_new (oid : N) (fields : gmap string jsval) : user :=
  {| _id := oid;
     doc_username := set_path fields "username" VUndefined;
     doc_email := set_path fields "email" VUndefined;
     doc_password := set_path fields "password" VUndefined;
     doc_role := set_path fields "role" role_default |}.

(** The enum validator of [role], run by [save]. *)
Definition role_valid (u : user) : bool := bool_decide (doc_role u ∈ role_enum).

Definition first_with_email (e : jsval) (us : list user) : option user :=
  List.find (fun u => bool_decide (doc_email u = e)) us.

(** ** Collaborator calls and the world *)

Inductive call : Type :=
  | CallHash (data : jsval) (rounds : Z)
  | CallCompare (data hashed : jsval)
  | CallSave (doc : user)
  | CallFindOne (query_email : jsval)
  | CallSign (payload : gmap string jsval) (secretOrPrivateKey : jsval)
             (expiresIn : string).

Record world : Type := mkWorld {
  users : list user;             (* the collection, oldest document first *)
  oid_next : N;                  (* ObjectId supply *)
  now_ms : Z;                    (* Date.now() *)
  env : gmap string string;      (* process.env *)
  calls : list call;             (* collaborator calls so far, oldest first *)
  sent : list response           (* what was written to [res], oldest first *)
}.

(** What the third-party modules do.  Every function takes the number of
    collaborator calls made so far, so that salts, connectivity and
    faults may differ from one call to the next.  [None] and [false] are a
    rejected promise or a thrown exception. *)
Record platform : Type := mkPlatform {
  hash_outcome : nat -> jsval -> Z -> option string;
  compare_outcome : nat -> jsval -> jsval -> option bool;
  save_accepted : nat -> list user -> user -> bool;
  find_served : nat -> list user -> jsval -> bool;
  sign_completes : nat -> gmap string jsval -> string -> bool
}.

(** ** The handler monad: state over [world], with exceptions *)

Inductive outcome (A : Type) : Type :=
  | Returned (a : A)
  | Thrown.
Arguments Returned {A} a.
Arguments Thrown {A}.

Definition M (A : Type) : Type := world -> outcome A * world.

Definition ret {A} (a : A) : M A := fun w => (Returned a, w).

Definition bind {A B} (m : M A) (k : A -> M B) : M B := fun w =>
  match m w with
  | (Returned a, w') => k a w'
  | (Thrown, w') => (Thrown, w')
  end.

(** [try { m } catch (error) { h }] *)
Definition try_catch {A} (m : M A) (h : M A) : M A := fun w =>
  match m w with
  | (Returned a, w') => (Returned a, w')
  | (Thrown, w') => h w'
  end.

Declare Scope handler_scope.
Delimit Scope handler_scope with handler.
Notation "'do' x <- m ; k" := (bind m (fun x => k))
  (at level 10, x name, m at level 100, k at level 200) : handler_scope.
Local Open Scope handler_scope.

Definition tick (w : world) : nat := length (calls w).

Definition log (c : call) (w : world) : world :=
  {| users := users w; oid_next := oid_next w; now_ms := now_ms w;
     env := env w; calls := calls w ++ [c]; sent := sent w |}.

Definition push_sent (r : response) (w : world) : world :=
  {| users := users w; oid_next := oid_next w; now_ms := now_ms w;
     env := env w; calls := calls w; sent := sent w ++ [r] |}.

Definition insert_user (doc : user) (w : world) : world :=
  {| users := users w ++ [doc]; oid_next := oid_next w; now_ms := now_ms w;
     env := env w; calls := calls w; sent := sent w |}.

Definition bump_oid (w : world) : world :=
  {| users := users w; oid_next := N.succ (oid_next w); now_ms := now_ms w;
     env := env w; calls := calls w; sent := sent w |}.

(** The next request arrives with a [res] of its own. *)
Definition new_res (w : world) : world :=
  {| users := users w; oid_next := oid_next w; now_ms := now_ms w;
     env := env w; calls := calls w; sent := [] |}.

(** [res.status(code).json(b)] *)
Definition res_json (code : Z) (b : json_body) : M unit := fun w =>
  (Returned tt, push_sent (mkResponse code b) w).

(** [process.env[k]] *)
Definition getenv (k : string) : M jsval := fun w =>
  (Returned (from_option VStr VUndefined (env w !! k)), w).

(** [Date.now()] *)
Definition Date_now : M Z := fun w => (Returned (now_ms w), w).

(** ** jsonwebtoken: the expiry of a token

    [jwt.sign] stamps the payload with [iat], the current time in seconds,
    and with [exp = timespan(expiresIn, iat)], where a string [expiresIn]
    is read by the [ms] package as a number followed by a unit. *)

Definition is_digit (c : ascii) : bool :=
  let n := nat_of_ascii c in (48 <=? n)%nat && (n <=? 57)%nat.

Fixpoint span_digits (s : string) : string * string :=
  match s with
  | String c r =>
      if is_digit c
      then let (ds, u) := span_digits r in (String c ds, u)
      else (EmptyString, s)
  | EmptyString => (EmptyString, EmptyString)
  end.

Fixpoint digits_value (acc : Z) (s : string) : Z :=
  match s with
  | String c r => digits_value (10 * acc + (Z.of_nat (nat_of_ascii c) - 48)) r
  | EmptyString => acc
  end.

Definition ms_unit (u : string) : option Z :=
  if decide (u = "" \/ u = "ms") then Some 1
  else if decide (u = "s") then Some 1000
  else if decide (u = "m") then Some 60000
  else if decide (u = "h") then Some 3600000
  else if decide (u = "d") then Some 86400000
  else if decide (u = "w") then Some 604800000
  else if decide (u = "y") then Some 31557600000
  else None.

(** [ms(str)], in milliseconds, for an unsigned integer and a short unit. *)
Definition ms (str : string) : option Z :=
  let (ds, u) := span_digits str in
  if decide (ds = "") then None
  else k ← ms_unit u; Some (digits_value 0 ds * k).

(** [timespan(time, timestamp)] of jsonwebtoken, for a string [time]. *)
Definition timespan (time : string) (timestamp : Z) : option Z :=
  milliseconds ← ms time; Some (timestamp + milliseconds / 1000).

(** ** The collaborators as the handlers call them *)

Section Controller.

Context (P : platform).

(** [await bcrypt.hash(data, rounds)] *)
Definition bcrypt_hash (data : jsval) (rounds : Z) : M string := fun w =>
  match hash_outcome P (tick w) data rounds with
  | Some h => (Returned h, log (CallHash data rounds) w)
  | None => (Thrown, log (CallHash data rounds) w)
  end.

(** [await bcrypt.compare(data, hashed)] *)
Definition bcrypt_compare (data hashed : jsval) : M bool := fun w =>
  match compare_outcome P (tick w) data hashed with
  | Some b => (Returned b, log (CallCompare data hashed) w)
  | None => (Thrown, log (CallCompare data hashed) w)
  end.

(** [new User(fields)]: the document gets its [_id] when it is built. *)
Definition new_User (fields : gmap string jsval) : M user := fun w =>
  (Returned (User_new (oid_next w) fields), bump_oid w).

(** [await doc.save()]: the document is validated and inserted, or the
    promise rejects and the collection is left as it was. *)
Definition User_save (doc : user) : M unit := fun w =>
  let w' := log (CallSave doc) w in
  if role_valid doc && save_accepted P (tick w) (users w) doc
  then (Returned tt, insert_user doc w')
  else (Thrown, w').

(** [await User.findOne({ email })]: the first document, in insertion
    order, whose [email] path equals the queried value, or [null]. *)
Definition User_findOne (query_email : jsval) : M (option user) := fun w =>
  let w' := log (CallFindOne query_email) w in
  if find_served P (tick w) (users w) query_email
  then (Returned (first_with_email query_email (users w)), w')
  else (Thrown, w').

(** [jwt.sign(payload, secretOrPrivateKey, { expiresIn })] with the default
    algorithm, HS256: a key that is falsy or not a string is refused, an
    [expiresIn] that is no time span is refused, and otherwise the payload
    is stamped with [iat] and [exp] and signed. *)
Definition jwt_sign (payload : gmap string jsval) (secretOrPrivateKey : jsval)
    (expiresIn : string) : M jwt := fun w =>
  let w' := log (CallSign payload secretOrPrivateKey expiresIn) w in
  let timestamp := now_ms w / 1000 in
  match secretOrPrivateKey, timespan expiresIn timestamp with
  | VStr key, Some exp =>
      if truthy secretOrPrivateKey && sign_completes P (tick w) payload key
      then (Returned
              {| jwt_claims :=
                   <["exp" := VNum exp]> (<["iat" := VNum timestamp]> payload);
                 jwt_key := key |},
            w')
      else (Thrown, w')
  | _, _ => (Thrown, w')
  end.

(** ** controllers/userController.js *)

Definition registerUser (req : request) : M unit :=
  let username := field req "username" in
  let email := field req "email" in
  let password := field req "password" in
  try_catch
    (do hashedPassword <- bcrypt_hash password 10;
     do newUser <- new_User (<["username" := username]>
                             (<["email" := email]>
                              {["password" := VStr hashedPassword]}));
     do _ <- User_save newUser;
     res_json 201 (JMessage "User registered successfully."))
    (res_json 500 (JError "Registration failed.")).

Definition loginUser (req : request) : M unit :=
  let email := field req "email" in
  let password := field req "password" in
  try_catch
    (do user <- User_findOne email;
     match user with
     | None => res_json 404 (JError "User not found.")
     | Some user =>
         do isMatch <- bcrypt_compare password (doc_password user);
         if negb isMatch
         then res_json 401 (JError "Invalid credentials.")
         else
           do JWT_SECRET <- getenv "JWT_SECRET";
           do token <- jwt_sign {["id" := VObjectId (_id user)]}
                                (js_or JWT_SECRET (VStr "secret")) "1h";
           res_json 200 (JToken token)
     end)
    (res_json 500 (JError "Login failed.")).

End Controller.

(** ** app.js: the registration route used when the user routes fail to load *)

Definition demo_register (req : request) : M unit :=
  let username := field req "username" in
  let email := field req "email" in
  let password := field req "password" in
  if negb (truthy username) || negb (truthy email) || negb (truthy password)
  then res_json 400 (JDemoMissing "Missing required fields"
                       ["username"; "email"; "password"] (dom (body req)))
  else
    do id <- Date_now;
    do createdAt <- Date_now;
    res_json 201 (JDemoRegistered "User registered successfully (demo)"
                    id username email createdAt
                    "This is a demo endpoint. Actual user routes not loaded.").

(** ** Reading off a run *)

Definition run {A} (m : M A) (w : world) : world := snd (m w).
Definition result {A} (m : M A) (w : world) : outcome A := fst (m w).

(** The statuses written to [res] during a run that started at [w]. *)
Definition statuses (w : world) : list Z := status <$> sent w.

(** The 500 bodies of the two handlers. *)
Definition register_failed : response :=
  mkResponse 500 (JError "Registration failed.").

Definition login_failed : response :=
  mkResponse 500 (JError "Login failed.").

(** The document [registerUser] builds from a request and a hash. *)
Definition registered_doc (req : request) (w : world) (h : string) : user :=
  {| _id := oid_next w;
     doc_username := field req "username";
     doc_email := field req "email";
     doc_password := VStr h;
     doc_role := VStr "student" |}.

(** The key [loginUser] hands to the signer in world [w]. *)
Definition signing_secret (w : world) : jsval :=
  js_or (from_option VStr VUndefined (env w !! "JWT_SECRET")) (VStr "secret").

(** The same key as a string; it always is one. *)
Definition signing_key (w : world) : string :=
  match signing_secret w with VStr key => key | _ => "" end.

(** The token [loginUser] issues for document [u] in world [w]. *)
Definition issued_token (w : world) (u : user) : jwt :=
  {| jwt_claims :=
       <["exp" := VNum (now_ms w / 1000 + 3600)]>
         (<["iat" := VNum (now_ms w / 1000)]> {["id" := VObjectId (_id u)]});
     jwt_key := signing_key w |}.

(** ** An executable platform for the examples

    A hasher that tags the plaintext with the salt it drew, a store that
    accepts every valid document, a signer that never fails. *)

Definition toy_salt (t : nat) : string :=
  String (ascii_of_nat (97 + t mod 26)) EmptyString.

Definition toy_hash (t : nat) (data : jsval) (rounds : Z) : option string :=
  match data with
  | VStr p => Some ("$2b$10$" ++ toy_salt t ++ "$" ++ p)
  | _ => None
  end.

Definition toy_compare (t : nat) (data hashed : jsval) : option bool :=
  match data, hashed with
  | VStr p, VStr h =>
      Some (bool_decide (String.length p + 9 = String.length h)%nat
            && String.eqb (substring 9 (String.length p) h) p)
  | _, _ => None
  end.

Definition toy_platform : platform :=
  {| hash_outcome := toy_hash;
     compare_outcome := toy_compare;
     save_accepted := fun _ _ _ => true;
     find_served := fun _ _ _ => true;
     sign_completes := fun _ _ _ => true |}.

(** The same platform with a unique index on [email]. *)
Definition unique_email (us : list user) (doc : user) : bool :=
  negb (existsb (fun u => bool_decide (doc_email u = doc_email doc)) us).

Definition toy_platform_unique : platform :=
  {| hash_outcome := toy_hash;
     compare_outcome := toy_compare;
     save_accepted := fun _ => unique_email;
     find_served := fun _ _ _ => true;
     sign_completes := fun _ _ _ => true |}.

Definition empty_world : world :=
  {| users := []; oid_next := 1%N; now_ms := 1700000000123;
     env := ∅; calls := []; sent := [] |}.

Definition alice : request :=
  mkRequest (<["username" := VStr "alice"]>
             (<["email" := VStr "alice@x.com"]>
              {["password" := VStr "pw123456"]})).

Definition alice_login (pw : string) : request :=
  mkRequest (<["email" := VStr "alice@x.com"]> {["password" := VStr pw]}).

(** A registration without a password. *)
Definition no_password : request :=
  mkRequest (<["username" := VStr "alice"]> {["email" := VStr "alice@x.com"]}).

(** A registration that asks for the instructor role. *)
Definition alice_instructor : request :=
  mkRequest (<["role" := VStr "instructor"]> (body alice)).

(** A platform on which every collaborator fails. *)
Definition down_platform : platform :=
  {| hash_outcome := fun _ _ _ => None;
     compare_outcome := fun _ _ _ => None;
     save_accepted := fun _ _ _ => false;
     find_served := fun _ _ _ => false;
     sign_completes := fun _ _ _ => false |}.

(** The world after alice has registered on the toy platform. *)
Definition registered_world : world :=
  new_res (run (registerUser toy_platform alice) empty_world).

Definition alice_doc : user :=
  {| _id := 1; doc_username := VStr "alice"; doc_email := VStr "alice@x.com";
     doc_password := VStr "$2b$10$a$pw123456"; doc_role := VStr "student" |}.

Definition nobody_login : request :=
  mkRequest (<["email" := VStr "nobody@x.com"]> {["password" := VStr "x"]}).

(** A world in which alice@x.com is already taken, under another password. *)
Definition taken_world : world :=
  {| users := [ {| _id := 1; doc_username := VStr "alice0";
                   doc_email := VStr "alice@x.com";
                   doc_password := VStr "$2b$10$a$old-password";
                   doc_role := VStr "student" |} ];
     oid_next := 2%N; now_ms := 1700000000123;
     env := ∅; calls := []; sent := [] |}.

(** A store that is down after a working hasher. *)
Definition store_down_platform : platform :=
  {| hash_outcome := toy_hash;
     compare_outcome := toy_compare;
     save_accepted := fun _ _ _ => false;
     find_served := fun _ _ _ => false;
     sign_completes := fun _ _ _ => true |}.

(** A world like [registered_world] whose environment sets the secret. *)
Definition configured_world : world :=
  {| users := users registered_world; oid_next := oid_next registered_world;
     now_ms := now_ms registered_world;
     env := {["JWT_SECRET" := "s3cr3t-from-env"]};
     calls := calls registered_world; sent := [] |}.

(** ** Start-up and shutdown: config/db.js and app.js

    The process around the routes: its environment, the state of the
    mongoose connection, what was printed, and whether it has exited. *)

Inductive stream : Type := Stdout | Stderr.

(** What is printed after the text of a console line. *)
Inductive console_arg : Type :=
  | ArgString (s : string)
  | ArgError (message : string)
  | ArgPromise.

(** One [console.log] or [console.error]: the text and its further
    arguments. *)
Record console_line : Type := mkLine {
  line_stream : stream;
  line_text : string;
  line_args : list console_arg
}.

Record connect_options : Type := mkConnectOptions {
  useNewUrlParser : bool;
  useUnifiedTopology : bool
}.

Inductive connect_result : Type :=
  | ConnectOk (name : string)
  | ConnectError (message : string).

Inductive driver_call : Type :=
  | CallConnect (uri : jsval) (options : option connect_options)
  | CallClose.

Record process : Type := mkProcess {
  proc_env : gmap string string;       (* process.env *)
  readyState : Z;                      (* mongoose.connection.readyState *)
  databaseName : string;               (* mongoose.connection.db.databaseName *)
  console : list console_line;         (* oldest line first *)
  driver_calls : list driver_call;     (* oldest call first *)
  exit_code : option Z                 (* set by process.exit *)
}.

(** What the database driver does: the outcome of a connection attempt,
    and the error with which closing the connection rejects, if it does. *)
Record driver : Type := mkDriver {
  connect_outcome : jsval -> option connect_options -> connect_result;
  close_error : option string
}.

Definition proc_getenv (k : string) (p : process) : jsval :=
  from_option VStr VUndefined (proc_env p !! k).

Definition console_log (text : string) (args : list console_arg) (p : process)
    : process :=
  {| proc_env := proc_env p; readyState := readyState p;
     databaseName := databaseName p;
     console := console p ++ [mkLine Stdout text args];
     driver_calls := driver_calls p; exit_code := exit_code p |}.

Definition console_error (text : string) (args : list console_arg)
    (p : process)
    : process :=
  {| proc_env := proc_env p; readyState := readyState p;
     databaseName := databaseName p;
     console := console p ++ [mkLine Stderr text args];
     driver_calls := driver_calls p; exit_code := exit_code p |}.

(** [process.exit(code)] *)
Definition process_exit (code : Z) (p : process) : process :=
  {| proc_env := proc_env p; readyState := readyState p;
     databaseName := databaseName p; console := console p;
     driver_calls := driver_calls p; exit_code := Some code |}.

(** [await mongoose.connect(uri, options)]: on success the connection is
    ready (state 1) on the named database, on failure it is
    disconnected (state 0) and the promise rejects. *)
Definition mongoose_connect (D : driver) (uri : jsval)
    (options : option connect_options) (p : process)
    : connect_result * process :=
  let r := connect_outcome D uri options in
  (r,
   {| proc_env := proc_env p;
      readyState := match r with ConnectOk _ => 1 | ConnectError _ => 0 end;
      databaseName := match r with
                      | ConnectOk name => name
                      | ConnectError _ => databaseName p
                      end;
      console := console p;
      driver_calls := driver_calls p ++ [CallConnect uri options];
      exit_code := exit_code p |}).

(** [await mongoose.connection.close()]: it resolves, which leaves the
    connection disconnected, or rejects with an error. *)
Definition mongoose_close (D : driver) (p : process)
    : option string * process :=
  (close_error D,
   {| proc_env := proc_env p;
      readyState := match close_error D with
                    | None => 0
                    | Some _ => readyState p
                    end;
      databaseName := databaseName p; console := console p;
      driver_calls := driver_calls p ++ [CallClose];
      exit_code := exit_code p |}).

Module ConfigDb.

(** config/db.js *)
Definition connectDB (D : driver) (p : process) : process :=
  match mongoose_connect D (proc_getenv "MONGO_URI" p)
          (Some {| useNewUrlParser := true; useUnifiedTopology := true |}) p
  with
  | (ConnectOk _, p1) => console_log "MongoDB connected successfully." [] p1
  | (ConnectError error, p1) =>
      process_exit 1
        (console_error "MongoDB connection failed:" [ArgError error] p1)
  end.

End ConfigDb.

Module App.

(** app.js, [connectDB] *)
Definition connectDB (D : driver) (p : process) : process :=
  if truthy (proc_getenv "MONGO_URI" p)
  then
    match mongoose_connect D (proc_getenv "MONGO_URI" p) None p with
    | (ConnectOk _, p1) =>
        let p2 := console_log "✅ MongoDB connected successfully" [] p1 in
        console_log ("📊 Connected to database: " ++ databaseName p2)%string [] p2
    | (ConnectError message, p1) =>
        console_error "❌ MongoDB connection error:" [ArgString message] p1
    end
  else console_log "⚠️  No MONGO_URI provided, running without database" [] p.

(** The body of [GET /health]. *)
Record health_body : Type := mkHealth {
  health_status : string;
  health_service : string;
  health_timestamp : Z;
  health_port : jsval;
  health_database : string
}.

(** app.js, [app.get('/health', ...)]; [now] is the instant of the call. *)
Definition health (now : Z) (p : process) : health_body * process :=
  let p1 := console_log "Health check route hit" [] p in
  ({| health_status := "OK";
      health_service := "User Management Service";
      health_timestamp := now;
      health_port := js_or (proc_getenv "PORT" p1) (VNum 5000);
      health_database :=
        if Z.eqb (readyState p1) 1 then "Connected" else "Disconnected" |},
   p1).

(** app.js, [process.on('unhandledRejection', ...)] *)
Definition on_unhandledRejection (reason : string) (p : process) : process :=
  process_exit 1
    (console_error "Unhandled Rejection at:"
       [ArgPromise; ArgString "reason:"; ArgError reason] p).

(** app.js, [process.on('SIGINT', async () => ...)].  The listener is
    asynchronous and nobody awaits it: if closing the connection
    rejects, the rejection is unhandled and reaches the listener
    above. *)
Definition on_SIGINT (D : driver) (p : process) : process :=
  let p1 :=
    console_log (String (ascii_of_nat 10) "⏹️  Shutting down server...") [] p in
  if Z.eqb (readyState p1) 1
  then
    match mongoose_close D p1 with
    | (None, p2) =>
        process_exit 0 (console_log "📊 MongoDB connection closed" [] p2)
    | (Some error, p2) => on_unhandledRejection error p2
    end
  else process_exit 0 p1.

End App.

(** alice's registration with keys the handler does not read. *)
Definition alice_padded : request :=
  mkRequest (<["_id" := VNum 7]> (<["isAdmin" := VBool true]> (body alice))).

(** A process that has just started, with and without a database URI. *)
Definition boot (e : gmap string string) : process :=
  {| proc_env := e; readyState := 0; databaseName := "";
     console := []; driver_calls := []; exit_code := None |}.

Definition mongo_env : gmap string string :=
  {["MONGO_URI" := "mongodb://localhost:27017/usermngtservice"]}.

Definition good_driver : driver :=
  {| connect_outcome := fun _ _ => ConnectOk "usermngtservice";
     close_error := None |}.

Definition bad_driver : driver :=
  {| connect_outcome := fun _ _ => ConnectError "connect ECONNREFUSED";
     close_error := Some "connection is busy" |}.

(** * Properties *)

Local Open Scope list_scope.

(** ** Bookkeeping *)

Lemma tick_log c w : tick (log c w) = S (tick w).
Proof. unfold tick, log; simpl. rewrite length_app; simpl. lia. Qed.

Lemma ms_1h : ms "1h" = Some 3600000.
Proof. reflexivity. Qed.

Lemma timespan_1h t : timespan "1h" t = Some (t + 3600).
Proof. unfold timespan. rewrite ms_1h. reflexivity. Qed.

Lemma set_path_undefined (m : gmap string jsval) k v :
  m !! k = Some v -> set_path m k VUndefined = v.
Proof. unfold set_path. intros ->. by destruct v. Qed.

Lemma field_delete_ne req k k' :
  k <> k' -> field (mkRequest (delete k (body req))) k' = field req k'.
Proof. intros Hne. unfold field; simpl. by rewrite lookup_delete_ne. Qed.

Lemma first_with_email_none e us :
  Forall (fun u => doc_email u <> e) us -> first_with_email e us = None.
Proof.
  unfold first_with_email.
  induction 1 as [|u us Hu _ IH]; simpl; [done|].
  by rewrite bool_decide_eq_false_2.
Qed.

Lemma first_with_email_app_r e us doc :
  Forall (fun u => doc_email u <> e) us -> doc_email doc = e ->
  first_with_email e (us ++ [doc]) = Some doc.
Proof.
  unfold first_with_email.
  induction 1 as [|u us Hu _ IH]; simpl; intros He.
  - by rewrite bool_decide_eq_true_2.
  - rewrite bool_decide_eq_false_2 by done. by apply IH.
Qed.

Lemma first_with_email_some e us u :
  first_with_email e us = Some u -> u ∈ us /\ doc_email u = e.
Proof.
  unfold first_with_email. intros H. apply find_some in H as [Hin Hb].
  apply bool_decide_eq_true in Hb. split; [by apply list_elem_of_In | done].
Qed.

Lemma signing_key_configured w s :
  env w !! "JWT_SECRET" = Some s -> s <> "" -> signing_key w = s.
Proof.
  intros He Hs. unfold signing_key, signing_secret, js_or. rewrite He; simpl.
  by apply String.eqb_neq in Hs as ->.
Qed.

Lemma signing_key_fallback w :
  env w !! "JWT_SECRET" = None \/ env w !! "JWT_SECRET" = Some "" ->
  signing_key w = "secret".
Proof.
  unfold signing_key, signing_secret, js_or. by intros [-> | ->].
Qed.

Lemma signing_secret_string w :
  signing_secret w = VStr (signing_key w) /\ truthy (signing_secret w) = true.
Proof.
  unfold signing_key, signing_secret, js_or.
  destruct (env w !! "JWT_SECRET") as [s|]; simpl; [|done].
  by destruct (String.eqb s "") eqn:Hs; simpl; rewrite ?Hs.
Qed.

(** ** The handlers, branch by branch *)

Lemma registerUser_eq P req w :
  registerUser P req w =
  let pw := field req "password" in
  let w1 := log (CallHash pw 10) w in
  match hash_outcome P (tick w) pw 10 with
  | None =>
      (Returned tt, push_sent (mkResponse 500 (JError "Registration failed.")) w1)
  | Some h =>
      let doc := registered_doc req w h in
      let w2 := log (CallSave doc) (bump_oid w1) in
      if save_accepted P (S (tick w)) (users w) doc
      then (Returned tt,
            push_sent (mkResponse 201 (JMessage "User registered successfully."))
              (insert_user doc w2))
      else (Returned tt,
            push_sent (mkResponse 500 (JError "Registration failed.")) w2)
  end.
Proof.
  unfold registerUser, try_catch, bind, bcrypt_hash, new_User, User_save, res_json.
  cbv zeta.
  destruct (hash_outcome P (tick w) (field req "password") 10) as [h|]; [|done].
  assert (Hdoc : User_new (oid_next (log (CallHash (field req "password") 10) w))
            (<["username" := field req "username"]>
             (<["email" := field req "email"]> {["password" := VStr h]}))
          = registered_doc req w h).
  { unfold User_new, registered_doc; simpl. f_equal.
    all: apply set_path_undefined; by simplify_map_eq. }
  rewrite Hdoc.
  replace (tick (bump_oid (log (CallHash (field req "password") 10) w)))
    with (S (tick w)) by (symmetry; apply tick_log).
  change (users (bump_oid (log (CallHash (field req "password") 10) w)))
    with (users w).
  change (role_valid (registered_doc req w h)) with true. simpl andb.
  by destruct (save_accepted P (S (tick w)) (users w) (registered_doc req w h)).
Qed.

Lemma loginUser_eq P req w :
  loginUser P req w =
  let e := field req "email" in
  let pw := field req "password" in
  let w1 := log (CallFindOne e) w in
  if find_served P (tick w) (users w) e then
    match first_with_email e (users w) with
    | None =>
        (Returned tt, push_sent (mkResponse 404 (JError "User not found.")) w1)
    | Some u =>
        let w2 := log (CallCompare pw (doc_password u)) w1 in
        match compare_outcome P (S (tick w)) pw (doc_password u) with
        | None =>
            (Returned tt, push_sent (mkResponse 500 (JError "Login failed.")) w2)
        | Some false =>
            (Returned tt,
             push_sent (mkResponse 401 (JError "Invalid credentials.")) w2)
        | Some true =>
            let payload : gmap string jsval := {["id" := VObjectId (_id u)]} in
            let w3 := log (CallSign payload (signing_secret w) "1h") w2 in
            if sign_completes P (S (S (tick w))) payload (signing_key w)
            then (Returned tt,
                  push_sent (mkResponse 200 (JToken (issued_token w u))) w3)
            else (Returned tt,
                  push_sent (mkResponse 500 (JError "Login failed.")) w3)
        end
    end
  else (Returned tt, push_sent (mkResponse 500 (JError "Login failed.")) w1).
Proof.
  unfold loginUser, try_catch, bind, User_findOne, bcrypt_compare, getenv,
    jwt_sign, res_json.
  cbv zeta.
  destruct (find_served P (tick w) (users w) (field req "email")); [|done].
  destruct (first_with_email (field req "email") (users w)) as [u|]; [|done].
  rewrite tick_log.
  destruct (compare_outcome P (S (tick w)) (field req "password")
              (doc_password u)) as [[|]|]; [|done|done].
  change (negb true) with false. cbv beta iota.
  rewrite timespan_1h, tick_log, tick_log.
  change (env (log _ (log _ w))) with (env w).
  change (now_ms (log _ (log _ w))) with (now_ms w).
  fold (signing_secret w).
  destruct (signing_secret_string w) as [Hkey Htruthy].
  rewrite Htruthy, Hkey. simpl andb.
  by destruct (sign_completes P (S (S (tick w))) _ (signing_key w)).
Qed.

(** The fallback route of [app.js] does check its three fields: if one of
    them is missing or falsy it answers 400 and touches nothing else. *)
Lemma demo_register_validates req w :
  truthy (field req "username") && truthy (field req "email")
    && truthy (field req "password") = false ->
  statuses (run (demo_register req) w) = statuses w ++ [400] /\
  calls (run (demo_register req) w) = calls w /\
  users (run (demo_register req) w) = users w.
Proof.
  intros Hmissing. unfold run, demo_register, statuses.
  destruct (truthy (field req "username")), (truthy (field req "email")),
    (truthy (field req "password")); try discriminate; simpl.
  all: by rewrite fmap_app.
Qed.

Ltac by_branches :=
  unfold run, result;
  first [rewrite registerUser_eq | rewrite loginUser_eq];
  cbv zeta; repeat case_match; simpl.

(** ** Registration *)

(** C1 (the controller falls short of it).  [registerUser] has no
    validation step: whatever fields the body lacks, its first act is to
    call the hasher on the [password] field, and it never answers 400.
    For a body without a password it answers 500 after the hasher has
    rejected [undefined]; the fallback route of [app.js] answers the same
    body with 400 and calls nothing. *)
Theorem registerUser_no_validation :
  (forall P req w,
     exists r rest,
       sent (run (registerUser P req) w) = sent w ++ [r] /\
       status r <> 400 /\
       calls (run (registerUser P req) w)
       = calls w ++ CallHash (field req "password") 10 :: rest) /\
  (statuses (run (registerUser toy_platform no_password) empty_world) = [500] /\
   calls (run (registerUser toy_platform no_password) empty_world)
   = [CallHash VUndefined 10] /\
   users (run (registerUser toy_platform no_password) empty_world) = [] /\
   statuses (run (demo_register no_password) empty_world) = [400] /\
   calls (run (demo_register no_password) empty_world) = []).
Proof.
  split.
  - intros P req w. by_branches.
    all: eexists _, _; split; [reflexivity|]; split; [done|].
    all: rewrite <- ?app_assoc; reflexivity.
  - repeat split; reflexivity.
Qed.

(** C2 (the controller falls short of it).  [registerUser] never reads
    [role]: a request and the same request with its [role] removed run
    identically, and every document it inserts carries the schema
    default.  A registration that asks for instructor is stored as
    student. *)
Theorem registerUser_ignores_role :
  (forall P req w,
     registerUser P req w = registerUser P (mkRequest (delete "role" (body req))) w) /\
  (forall P req w,
     users (run (registerUser P req) w) = users w \/
     exists doc, users (run (registerUser P req) w) = users w ++ [doc] /\
                 doc_role doc = VStr "student") /\
  (field alice_instructor "role" = VStr "instructor" /\
   doc_role <$> users (run (registerUser toy_platform alice_instructor) empty_world)
   = [VStr "student"]).
Proof.
  split; [|split].
  - intros P req w. rewrite !registerUser_eq. cbv zeta.
    unfold registered_doc. by rewrite !field_delete_ne.
  - intros P req w. by_branches; eauto.
  - split; reflexivity.
Qed.

(** ** Login *)

(** C9.  [loginUser] leaves the collection as it found it, in every
    branch: it only reads it. *)
Theorem loginUser_preserves_store P req w :
  users (run (loginUser P req) w) = users w.
Proof. by_branches; reflexivity. Qed.

(** C4.  When the lookup is served and no document carries the queried
    email, [loginUser] answers 404; when the first document with that
    email is found and the hasher reports a mismatch, it answers 401.  In
    both cases the body is an error message and the signer is not
    called. *)
Theorem loginUser_rejections P req w :
  find_served P (tick w) (users w) (field req "email") = true ->
  (Forall (fun u => doc_email u <> field req "email") (users w) ->
   sent (run (loginUser P req) w)
   = sent w ++ [mkResponse 404 (JError "User not found.")] /\
   calls (run (loginUser P req) w)
   = calls w ++ [CallFindOne (field req "email")]) /\
  (forall u,
     first_with_email (field req "email") (users w) = Some u ->
     compare_outcome P (S (tick w)) (field req "password") (doc_password u)
     = Some false ->
     sent (run (loginUser P req) w)
     = sent w ++ [mkResponse 401 (JError "Invalid credentials.")] /\
     calls (run (loginUser P req) w)
     = calls w ++ [CallFindOne (field req "email");
                   CallCompare (field req "password") (doc_password u)]).
Proof.
  intros Hserved. split.
  - intros Hnone. apply first_with_email_none in Hnone.
    unfold run. rewrite loginUser_eq. cbv zeta. rewrite Hserved, Hnone.
    by split.
  - intros u Hu Hcmp.
    unfold run. rewrite loginUser_eq. cbv zeta. rewrite Hserved, Hu, Hcmp.
    simpl. by rewrite <- app_assoc.
Qed.

Lemma loginUser_rejections_witness :
  statuses (run (loginUser toy_platform nobody_login) registered_world) = [404] /\
  statuses (run (loginUser toy_platform (alice_login "wrong")) registered_world)
  = [401].
Proof.
  split.
  - destruct (loginUser_rejections toy_platform nobody_login registered_world
                eq_refl) as [H _].
    destruct H as [H _].
    + repeat constructor. discriminate.
    + unfold statuses. rewrite H. reflexivity.
  - destruct (loginUser_rejections toy_platform (alice_login "wrong")
                registered_world eq_refl) as [_ H].
    destruct (H alice_doc eq_refl eq_refl) as [H' _].
    unfold statuses. rewrite H'. reflexivity.
Defined.

(** What one run of [loginUser] writes to [res], by branch. *)
Lemma loginUser_sent P req w :
  exists r, sent (run (loginUser P req) w) = sent w ++ [r] /\
    (r = mkResponse 404 (JError "User not found.") \/
     r = mkResponse 401 (JError "Invalid credentials.") \/
     r = login_failed \/
     exists u, first_with_email (field req "email") (users w) = Some u /\
               r = mkResponse 200 (JToken (issued_token w u))).
Proof. by_branches; eexists; split; try reflexivity; eauto 10. Qed.

(** C5.  A login that answers 200 carries a token whose [id] claim is
    the [_id] of the document found for the request's email, whose [iat]
    claim is the time of the call in seconds, and whose [exp] claim is
    [iat] plus 3600 seconds. *)
Theorem login_token_claims P req w r :
  sent (run (loginUser P req) w) = sent w ++ [r] ->
  status r = 200 ->
  exists tok u iat,
    json r = JToken tok /\
    first_with_email (field req "email") (users w) = Some u /\
    doc_email u = field req "email" /\
    jwt_claims tok !! "id" = Some (VObjectId (_id u)) /\
    iat = now_ms w / 1000 /\
    jwt_claims tok !! "iat" = Some (VNum iat) /\
    jwt_claims tok !! "exp" = Some (VNum (iat + 3600)).
Proof.
  intros Hsent Hst.
  destruct (loginUser_sent P req w) as (r' & Hr' & Hcase).
  rewrite Hsent in Hr'. apply app_inv_head in Hr'. injection Hr' as <-.
  destruct Hcase as [-> | [-> | [-> | (u & Hu & ->)]]]; try discriminate.
  exists (issued_token w u), u, (now_ms w / 1000).
  split; [done|]. split; [done|].
  split; [by apply first_with_email_some in Hu as [_ ?]|].
  unfold issued_token; simpl. by simplify_map_eq.
Qed.

Lemma login_token_claims_witness :
  exists tok u iat,
    JToken (issued_token registered_world alice_doc) = JToken tok /\
    first_with_email (VStr "alice@x.com") (users registered_world) = Some u /\
    doc_email u = VStr "alice@x.com" /\
    jwt_claims tok !! "id" = Some (VObjectId (_id u)) /\
    iat = now_ms registered_world / 1000 /\
    jwt_claims tok !! "iat" = Some (VNum iat) /\
    jwt_claims tok !! "exp" = Some (VNum (iat + 3600)).
Proof.
  exact (login_token_claims toy_platform (alice_login "pw123456")
           registered_world
           (mkResponse 200 (JToken (issued_token registered_world alice_doc)))
           eq_refl eq_refl).
Defined.

(** C6.  When the lookup, the comparison and the signer succeed, the
    token is signed with [JWT_SECRET] if the environment sets it to a
    non-empty string, and with the literal [secret] if the variable is
    unset or empty; in both cases the login answers 200. *)
Theorem login_signing_key P req w u :
  find_served P (tick w) (users w) (field req "email") = true ->
  first_with_email (field req "email") (users w) = Some u ->
  compare_outcome P (S (tick w)) (field req "password") (doc_password u)
  = Some true ->
  (forall s, sign_completes P (S (S (tick w)))
               {["id" := VObjectId (_id u)]} s = true) ->
  exists tok,
    sent (run (loginUser P req) w) = sent w ++ [mkResponse 200 (JToken tok)] /\
    calls (run (loginUser P req) w)
    = calls w ++ [CallFindOne (field req "email");
                  CallCompare (field req "password") (doc_password u);
                  CallSign {["id" := VObjectId (_id u)]} (VStr (jwt_key tok))
                    "1h"] /\
    (forall s, env w !! "JWT_SECRET" = Some s -> s <> "" -> jwt_key tok = s) /\
    (env w !! "JWT_SECRET" = None \/ env w !! "JWT_SECRET" = Some "" ->
     jwt_key tok = "secret").
Proof.
  intros Hserved Hu Hcmp Hsign.
  exists (issued_token w u).
  unfold run. rewrite loginUser_eq. cbv zeta.
  rewrite Hserved, Hu, Hcmp, Hsign. simpl.
  split; [done|].
  split; [by rewrite <- !app_assoc, (proj1 (signing_secret_string w))|].
  split; [apply signing_key_configured | apply signing_key_fallback].
Qed.

Lemma login_signing_key_witness :
  (exists tok,
     sent (run (loginUser toy_platform (alice_login "pw123456")) configured_world)
     = [mkResponse 200 (JToken tok)] /\ jwt_key tok = "s3cr3t-from-env") /\
  (exists tok,
     sent (run (loginUser toy_platform (alice_login "pw123456")) registered_world)
     = [mkResponse 200 (JToken tok)] /\ jwt_key tok = "secret").
Proof.
  split.
  - destruct (login_signing_key toy_platform (alice_login "pw123456")
                configured_world alice_doc eq_refl eq_refl eq_refl
                (fun _ => eq_refl)) as (tok & Hs & _ & Hk & _).
    exists tok. split; [exact Hs|]. by apply Hk.
  - destruct (login_signing_key toy_platform (alice_login "pw123456")
                registered_world alice_doc eq_refl eq_refl eq_refl
                (fun _ => eq_refl)) as (tok & Hs & _ & _ & Hk).
    exists tok. split; [exact Hs|]. apply Hk. by left.
Defined.

(** ** Responses *)

(** C8.  The answer of [registerUser] is one of two literal bodies of the
    source, the same for every request and every stored hash: a message on
    success, an error otherwise, never a token or a record.  The answer
    of [loginUser] is one of three literal errors, or a token whose
    claims are exactly [id], [iat] and [exp], none of them a string: the
    [password] path of the document is not among them. *)
Theorem responses_carry_no_password P req w :
  (exists r,
     sent (run (registerUser P req) w) = sent w ++ [r] /\
     (r = mkResponse 201 (JMessage "User registered successfully.") \/
      r = mkResponse 500 (JError "Registration failed."))) /\
  (exists r,
     sent (run (loginUser P req) w) = sent w ++ [r] /\
     ((exists msg,
         json r = JError msg /\
         msg ∈ ["User not found."; "Invalid credentials."; "Login failed."]) \/
      (exists tok,
         json r = JToken tok /\
         dom (jwt_claims tok) = ({["id"; "iat"; "exp"]} : gset string) /\
         forall k v, jwt_claims tok !! k = Some v -> forall s, v <> VStr s))).
Proof.
  split.
  - by_branches; eexists; split; try reflexivity; eauto.
  - destruct (loginUser_sent P req w) as (r & Hr & Hcase).
    exists r. split; [done|].
    destruct Hcase as [-> | [-> | [-> | (u & _ & ->)]]].
    1-3: left; eexists; split; [reflexivity|set_solver].
    right. exists (issued_token w u). split; [done|].
    unfold issued_token; simpl. split.
    + rewrite !dom_insert_L, dom_singleton_L. set_solver.
    + intros k v Hk s ->.
      apply lookup_insert_Some in Hk as [[_ ?] | [_ Hk]]; [done|].
      apply lookup_insert_Some in Hk as [[_ ?] | [_ Hk]]; [done|].
      by apply lookup_singleton_Some in Hk as [_ ?].
Qed.

(** C10.  Each handler returns normally and writes exactly one response
    to [res]: 201 or 500 for [registerUser]; 200, 404, 401 or 500 for
    [loginUser].  A rejection by the hasher, the store or the signer is
    caught inside the handler and answered with its 500 body. *)
Theorem handlers_answer_once P req w :
  (result (registerUser P req) w = Returned tt /\
   exists r,
     sent (run (registerUser P req) w) = sent w ++ [r] /\
     (status r = 201 \/ status r = 500) /\
     (hash_outcome P (tick w) (field req "password") 10 = None ->
      r = register_failed) /\
     (forall h,
        hash_outcome P (tick w) (field req "password") 10 = Some h ->
        save_accepted P (S (tick w)) (users w) (registered_doc req w h) = false ->
        r = register_failed)) /\
  (result (loginUser P req) w = Returned tt /\
   exists r,
     sent (run (loginUser P req) w) = sent w ++ [r] /\
     (status r = 200 \/ status r = 404 \/ status r = 401 \/ status r = 500) /\
     (find_served P (tick w) (users w) (field req "email") = false ->
      r = login_failed) /\
     (forall u,
        find_served P (tick w) (users w) (field req "email") = true ->
        first_with_email (field req "email") (users w) = Some u ->
        (compare_outcome P (S (tick w)) (field req "password") (doc_password u)
         = None -> r = login_failed) /\
        (compare_outcome P (S (tick w)) (field req "password") (doc_password u)
         = Some true ->
         sign_completes P (S (S (tick w))) {["id" := VObjectId (_id u)]}
           (signing_key w) = false ->
         r = login_failed))).
Proof.
  split.
  - by_branches.
    all: split; [reflexivity|]; eexists; split; [reflexivity|].
    all: simpl; repeat split; auto; intros; simplify_eq; congruence.
  - by_branches.
    all: split; [reflexivity|]; eexists; split; [reflexivity|].
    all: simpl; repeat split; auto; intros; simplify_eq; congruence.
Qed.

Lemma handlers_answer_once_witness :
  sent (run (registerUser down_platform alice) empty_world) = [register_failed] /\
  sent (run (registerUser store_down_platform alice) empty_world)
  = [register_failed] /\
  sent (run (loginUser store_down_platform (alice_login "pw123456")) empty_world)
  = [login_failed].
Proof.
  split; [|split].
  - destruct (handlers_answer_once down_platform alice empty_world)
      as [(_ & r & Hs & _ & Hh & _) _].
    rewrite Hs, (Hh eq_refl). reflexivity.
  - destruct (handlers_answer_once store_down_platform alice empty_world)
      as [(_ & r & Hs & _ & _ & Hh) _].
    rewrite Hs, (Hh _ eq_refl eq_refl). reflexivity.
  - destruct (handlers_answer_once store_down_platform
                (alice_login "pw123456") empty_world)
      as [_ (_ & r & Hs & _ & Hh & _)].
    rewrite Hs, (Hh eq_refl). reflexivity.
Defined.

(** ** Registration followed by login *)

(** C3, as the specification words it, fails when the email is already
    taken under another password.  Without a unique index the second
    registration is accepted and the login, which finds the older
    document first, answers 401; with a unique index the registration
    itself answers 500 and the login answers 401 as well. *)
Lemma register_then_login_taken_email :
  (statuses (run (registerUser toy_platform alice) taken_world) = [201] /\
   statuses (run (loginUser toy_platform (alice_login "pw123456"))
               (new_res (run (registerUser toy_platform alice) taken_world)))
   = [401]) /\
  (statuses (run (registerUser toy_platform_unique alice) taken_world) = [500] /\
   statuses (run (loginUser toy_platform_unique (alice_login "pw123456"))
               (new_res (run (registerUser toy_platform_unique alice)
                           taken_world)))
   = [401]).
Proof. repeat split; reflexivity. Qed.

(** C3, amended.  If [registerUser] answers 201 for a request whose email
    no stored document carried, then a login with the same email and
    password, run against the resulting world, answers 200 with a token,
    provided the hasher verifies the hash it has just produced and the
    lookup and the signer complete. *)
Theorem register_then_login P w req login :
  let w1 := new_res (run (registerUser P req) w) in
  field login "email" = field req "email" ->
  field login "password" = field req "password" ->
  statuses (run (registerUser P req) w) = statuses w ++ [201] ->
  Forall (fun x => doc_email x <> field req "email") (users w) ->
  (forall h,
     hash_outcome P (tick w) (field req "password") 10 = Some h ->
     compare_outcome P (S (tick w1)) (field req "password") (VStr h)
     = Some true) ->
  find_served P (tick w1) (users w1) (field req "email") = true ->
  (forall payload s, sign_completes P (S (S (tick w1))) payload s = true) ->
  exists tok,
    sent (run (loginUser P login) w1) = [mkResponse 200 (JToken tok)].
Proof.
  intros w1 He Hp H201 Hfresh Hhash Hserved Hsign.
  assert (Hreg : exists h,
             hash_outcome P (tick w) (field req "password") 10 = Some h /\
             users w1 = users w ++ [registered_doc req w h]).
  { subst w1. revert H201. unfold statuses. by_branches.
    all: rewrite fmap_app; simpl; intros Hst; apply app_inv_head in Hst;
      try discriminate.
    eauto. }
  destruct Hreg as (h & Hh & Husers).
  assert (Hfound : first_with_email (field req "email") (users w1)
                   = Some (registered_doc req w h)).
  { rewrite Husers. by apply first_with_email_app_r. }
  exists (issued_token w1 (registered_doc req w h)).
  unfold run. rewrite loginUser_eq. cbv zeta.
  rewrite He, Hp, Hserved, Hfound. simpl doc_password.
  rewrite (Hhash h Hh), Hsign. reflexivity.
Qed.

Lemma register_then_login_witness :
  exists tok,
    sent (run (loginUser toy_platform (alice_login "pw123456")) registered_world)
    = [mkResponse 200 (JToken tok)].
Proof.
  apply (register_then_login toy_platform empty_world alice
           (alice_login "pw123456")).
  - reflexivity.
  - reflexivity.
  - reflexivity.
  - constructor.
  - intros h Hh. injection Hh as <-. reflexivity.
  - reflexivity.
  - reflexivity.
Defined.

(** * Further properties of the controller *)


Lemma first_with_email_last e us doc :
  doc_email doc = e -> is_Some (first_with_email e (us ++ [doc])).
Proof.
  intros He. unfold first_with_email.
  induction us as [|x us IH]; simpl.
  - rewrite bool_decide_eq_true_2 by done. by eexists.
  - destruct (bool_decide (doc_email x = e)); [by eexists|done].
Qed.

(** X1.  The status of a registration tells what happened to the collection:
    201 goes with exactly one appended document, built from the request's
    [username] and [email], the hasher's output for the request's
    [password] at cost 10, and the default role; 500 goes with an
    unchanged collection.  Documents already stored are never touched. *)
Theorem registerUser_effect P req w :
  exists r,
    sent (run (registerUser P req) w) = sent w ++ [r] /\
    ((status r = 201 /\
      exists h doc,
        hash_outcome P (tick w) (field req "password") 10 = Some h /\
        users (run (registerUser P req) w) = users w ++ [doc] /\
        doc_username doc = field req "username" /\
        doc_email doc = field req "email" /\
        doc_password doc = VStr h /\
        doc_role doc = role_default) \/
     (status r = 500 /\ users (run (registerUser P req) w) = users w)).
Proof.
  by_branches; eexists; (split; [reflexivity|]).
  - left. split; [done|]. by eexists _, _.
  - by right.
  - by right.
Qed.

(** X2.  Which collaborators a handler calls, and in which order.
    [registerUser] calls the hasher once, then at most [save]; it never
    reads the collection and never signs.  [loginUser] calls [findOne]
    once, then [compare] only on a document it found, then the signer;
    it never hashes and never saves. *)
Theorem handlers_call_discipline P req w :
  (exists cs,
     calls (run (registerUser P req) w)
     = calls w ++ CallHash (field req "password") 10 :: cs /\
     (cs = [] \/ exists doc, cs = [CallSave doc])) /\
  (exists cs,
     calls (run (loginUser P req) w)
     = calls w ++ CallFindOne (field req "email") :: cs /\
     (cs = [] \/
      exists u,
        first_with_email (field req "email") (users w) = Some u /\
        (cs = [CallCompare (field req "password") (doc_password u)] \/
         exists key,
           cs = [CallCompare (field req "password") (doc_password u);
                 CallSign {["id" := VObjectId (_id u)]} key "1h"]))).
Proof.
  split.
  - by_branches; rewrite <- ?app_assoc; eexists; (split; [reflexivity|]); eauto.
  - by_branches; rewrite <- ?app_assoc; eexists; (split; [reflexivity|]);
      eauto 10.
Qed.

(** X3.  The status of a login, read backwards: 404 exactly when the lookup is
    served and finds no document; 401 exactly when the hasher reports a
    mismatch for the document found; 200 exactly when it reports a match
    and the signer completes.  So a token is only ever issued after a
    successful comparison against the stored hash, and 404 against 401
    tells a caller whether an email is registered. *)
Theorem loginUser_status_iff P req w :
  exists r,
    sent (run (loginUser P req) w) = sent w ++ [r] /\
    (status r = 404 <->
       find_served P (tick w) (users w) (field req "email") = true /\
       first_with_email (field req "email") (users w) = None) /\
    (status r = 401 <->
       find_served P (tick w) (users w) (field req "email") = true /\
       exists u,
         first_with_email (field req "email") (users w) = Some u /\
         compare_outcome P (S (tick w)) (field req "password") (doc_password u)
         = Some false) /\
    (status r = 200 <->
       find_served P (tick w) (users w) (field req "email") = true /\
       exists u,
         first_with_email (field req "email") (users w) = Some u /\
         compare_outcome P (S (tick w)) (field req "password") (doc_password u)
         = Some true /\
         sign_completes P (S (S (tick w))) {["id" := VObjectId (_id u)]}
           (signing_key w) = true).
Proof.
  unfold run. rewrite loginUser_eq. cbv zeta.
  destruct (find_served P (tick w) (users w) (field req "email")) eqn:Hs;
    [destruct (first_with_email (field req "email") (users w))
       as [u|] eqn:Hu;
     [destruct (compare_outcome P (S (tick w)) (field req "password")
                  (doc_password u)) as [[|]|] eqn:Hc;
      [destruct (sign_completes P (S (S (tick w)))
                   {["id" := VObjectId (_id u)]} (signing_key w)) eqn:Hg
      | | ] | ] | ].
  all: eexists; (split; [reflexivity|]); simpl.
  all: split_and!; (split; [intros Hst; try discriminate | intros Hc']).
  all: repeat match goal with
         | H : _ /\ _ |- _ => destruct H
         | H : ex _ |- _ => destruct H
         end.
  all: simplify_eq; try congruence; eauto 10.
Qed.

(** X4.  The handlers read nothing of the body but their own fields: two
    login requests that agree on [email] and [password] run identically,
    and so do two registrations that also agree on [username].  No other
    key of the body ([role], [_id], ...) reaches the document or the
    token. *)
Theorem handlers_read_their_fields_only P req req' w :
  field req "email" = field req' "email" ->
  field req "password" = field req' "password" ->
  loginUser P req w = loginUser P req' w /\
  (field req "username" = field req' "username" ->
   registerUser P req w = registerUser P req' w).
Proof.
  intros He Hp. split.
  - rewrite !loginUser_eq. cbv zeta. by rewrite He, Hp.
  - intros Hu. rewrite !registerUser_eq. cbv zeta. unfold registered_doc.
    by rewrite He, Hp, Hu.
Qed.

Lemma handlers_read_their_fields_only_witness :
  loginUser toy_platform alice registered_world
  = loginUser toy_platform alice_padded registered_world /\
  registerUser toy_platform alice empty_world
  = registerUser toy_platform alice_padded empty_world.
Proof.
  destruct (handlers_read_their_fields_only toy_platform alice alice_padded
              registered_world eq_refl eq_refl) as [Hl _].
  destruct (handlers_read_their_fields_only toy_platform alice alice_padded
              empty_world eq_refl eq_refl) as [_ Hr].
  split; [exact Hl | exact (Hr eq_refl)].
Defined.



(** X6.  After a registration that answered 201, a login with the same email
    whose lookup is served finds a document with that email: it never
    answers 404. *)
Theorem registered_email_is_found P req login w r :
  let w1 := new_res (run (registerUser P req) w) in
  sent (run (registerUser P req) w) = sent w ++ [r] ->
  status r = 201 ->
  field login "email" = field req "email" ->
  find_served P (tick w1) (users w1) (field req "email") = true ->
  exists r' u,
    sent (run (loginUser P login) w1) = [r'] /\
    status r' <> 404 /\
    first_with_email (field req "email") (users w1) = Some u /\
    doc_email u = field req "email".
Proof.
  intros w1 Hsent H201 He Hserved.
  assert (Hfound : is_Some (first_with_email (field req "email") (users w1))).
  { subst w1. revert Hsent H201. by_branches.
    all: intros Hr; apply app_inv_head in Hr; injection Hr as <-; simpl;
      intros Hst; try discriminate.
    by apply first_with_email_last. }
  destruct Hfound as [u Hu].
  assert (Hemail : doc_email u = field req "email")
    by (by apply first_with_email_some in Hu as [_ ?]).
  unfold run. rewrite loginUser_eq. cbv zeta. rewrite He, Hserved, Hu.
  destruct (compare_outcome P (S (tick w1)) (field login "password")
              (doc_password u)) as [[|]|];
    [destruct (sign_completes P (S (S (tick w1)))
                 {["id" := VObjectId (_id u)]} (signing_key w1))| |].
  all: eexists _, u; split; [reflexivity|]; by split.
Qed.

Lemma registered_email_is_found_witness :
  exists r' u,
    sent (run (loginUser toy_platform (alice_login "wrong")) registered_world)
    = [r'] /\
    status r' <> 404 /\
    first_with_email (VStr "alice@x.com") (users registered_world) = Some u /\
    doc_email u = VStr "alice@x.com".
Proof.
  exact (registered_email_is_found toy_platform alice (alice_login "wrong")
           empty_world
           (mkResponse 201 (JMessage "User registered successfully."))
           eq_refl eq_refl eq_refl eq_refl).
Defined.

(** X7.  A registration that answered 500 has created no account: if no
    document carried the email before, a login with that email whose
    lookup is served still answers 404 afterwards. *)
Theorem failed_registration_creates_no_account P req login w r :
  let w1 := new_res (run (registerUser P req) w) in
  sent (run (registerUser P req) w) = sent w ++ [r] ->
  status r = 500 ->
  Forall (fun u => doc_email u <> field req "email") (users w) ->
  field login "email" = field req "email" ->
  find_served P (tick w1) (users w1) (field req "email") = true ->
  users w1 = users w /\
  sent (run (loginUser P login) w1)
  = [mkResponse 404 (JError "User not found.")].
Proof.
  intros w1 Hsent H500 Hfresh He Hserved.
  assert (Husers : users w1 = users w).
  { subst w1. revert Hsent H500. by_branches; try done.
    intros Hr. apply app_inv_head in Hr. injection Hr as <-. discriminate. }
  split; [exact Husers|].
  unfold run. rewrite loginUser_eq. cbv zeta. rewrite He, Hserved, Husers.
  by rewrite (first_with_email_none _ _ Hfresh).
Qed.

Lemma failed_registration_creates_no_account_witness :
  users (new_res (run (registerUser toy_platform no_password) empty_world))
  = users empty_world /\
  sent (run (loginUser toy_platform (alice_login "pw123456"))
          (new_res (run (registerUser toy_platform no_password) empty_world)))
  = [mkResponse 404 (JError "User not found.")].
Proof.
  apply (failed_registration_creates_no_account toy_platform no_password
           (alice_login "pw123456") empty_world register_failed
           eq_refl eq_refl).
  - constructor.
  - reflexivity.
  - reflexivity.
Defined.

(** * The fallback registration route of app.js *)

(** X8.  The fallback route answers 400 exactly when one of its three fields
    is missing or falsy (the empty string included) and 201 otherwise,
    and in both cases it persists nothing: apart from the response, the
    world is as before, so a login after a "successful" fallback
    registration runs exactly as it would have run without it. *)
Theorem demo_register_persists_nothing req w :
  new_res (run (demo_register req) w) = new_res w /\
  (forall P login,
     loginUser P login (new_res (run (demo_register req) w))
     = loginUser P login (new_res w)) /\
  exists r,
    sent (run (demo_register req) w) = sent w ++ [r] /\
    (status r = 201 \/ status r = 400) /\
    (status r = 400 <->
       truthy (field req "username") && truthy (field req "email")
         && truthy (field req "password") = false).
Proof.
  assert (Hw : new_res (run (demo_register req) w) = new_res w).
  { unfold run, demo_register.
    by destruct (truthy (field req "username")), (truthy (field req "email")),
      (truthy (field req "password")). }
  split; [exact Hw|]. split; [intros P login; by rewrite Hw|].
  unfold run, demo_register.
  destruct (truthy (field req "username")), (truthy (field req "email")),
    (truthy (field req "password")); simpl.
  all: eexists; (split; [reflexivity|]); simpl; split; [auto|]; by split.
Qed.

(** * Start-up and shutdown *)

(** X9.  [connectDB] of config/db.js attempts the connection exactly once,
    with the URI of the environment and both parser options on, and
    then either the connection is ready and the process goes on, or
    the process has exited with code 1: it never goes on without a
    database. *)
Theorem connectDB_connects_or_exits D p :
  driver_calls (ConfigDb.connectDB D p)
  = driver_calls p
    ++ [CallConnect (proc_getenv "MONGO_URI" p)
          (Some {| useNewUrlParser := true; useUnifiedTopology := true |})] /\
  ((readyState (ConfigDb.connectDB D p) = 1 /\
    exit_code (ConfigDb.connectDB D p) = exit_code p) \/
   (readyState (ConfigDb.connectDB D p) = 0 /\
    exit_code (ConfigDb.connectDB D p) = Some 1)).
Proof.
  unfold ConfigDb.connectDB, mongoose_connect.
  destruct (connect_outcome D _ _); simpl; auto.
Qed.

(** X10.  [connectDB] of app.js never ends the process.  It attempts the
    connection exactly when [MONGO_URI] is set to a non-empty string;
    otherwise it calls nothing and leaves the connection as it was. *)
Theorem app_connectDB_never_exits D p :
  exit_code (App.connectDB D p) = exit_code p /\
  (forall uri,
     proc_env p !! "MONGO_URI" = Some uri -> uri <> "" ->
     driver_calls (App.connectDB D p)
     = driver_calls p ++ [CallConnect (VStr uri) None]) /\
  (proc_env p !! "MONGO_URI" = None \/ proc_env p !! "MONGO_URI" = Some "" ->
   driver_calls (App.connectDB D p) = driver_calls p /\
   readyState (App.connectDB D p) = readyState p).
Proof.
  unfold App.connectDB, mongoose_connect, proc_getenv. split; [|split].
  - destruct (truthy _); [|done]. by destruct (connect_outcome D _ _).
  - intros uri -> Huri. simpl.
    apply String.eqb_neq in Huri as ->. simpl.
    by destruct (connect_outcome D _ _).
  - by intros [-> | ->].
Qed.

Lemma app_connectDB_never_exits_witness :
  driver_calls (App.connectDB bad_driver (boot mongo_env))
  = [CallConnect (VStr "mongodb://localhost:27017/usermngtservice") None] /\
  driver_calls (App.connectDB bad_driver (boot ∅)) = [] /\
  exit_code (App.connectDB bad_driver (boot mongo_env)) = None.
Proof.
  destruct (app_connectDB_never_exits bad_driver (boot mongo_env))
    as (Hexit & Hset & _).
  destruct (app_connectDB_never_exits bad_driver (boot ∅)) as (_ & _ & Hunset).
  split; [|split].
  - apply (Hset "mongodb://localhost:27017/usermngtservice"); [reflexivity|].
    discriminate.
  - apply Hunset. by left.
  - exact Hexit.
Defined.

(** X11.  After app.js's [connectDB], started on a connection that is not
    ready, [GET /health] reports Connected exactly when [MONGO_URI] is
    set to a non-empty string and the connection attempt succeeded; in
    every other case the service is up and reports Disconnected. *)
Theorem health_after_connectDB D p now :
  readyState p <> 1 ->
  (App.health_database (fst (App.health now (App.connectDB D p))) = "Connected"
   <-> exists uri name,
         proc_env p !! "MONGO_URI" = Some uri /\ uri <> "" /\
         connect_outcome D (VStr uri) None = ConnectOk name) /\
  (App.health_database (fst (App.health now (App.connectDB D p))) = "Connected"
   \/ App.health_database (fst (App.health now (App.connectDB D p)))
      = "Disconnected") /\
  exit_code (snd (App.health now (App.connectDB D p))) = exit_code p.
Proof.
  intros Hne. apply Z.eqb_neq in Hne.
  unfold App.health, App.connectDB, mongoose_connect, proc_getenv.
  destruct (proc_env p !! "MONGO_URI") as [uri|] eqn:He; simpl.
  - destruct (String.eqb uri "") eqn:Huri; simpl.
    + apply String.eqb_eq in Huri as ->. rewrite Hne.
      split_and!; [|by right|done].
      split; [done|]. by intros (uri & name & ? & ? & _); simplify_eq.
    + apply String.eqb_neq in Huri.
      destruct (connect_outcome D (VStr uri) None) as [name|msg] eqn:Hc; simpl.
      * split_and!; [|by left|done]. split; [|done].
        intros _. by exists uri, name.
      * split_and!; [|by right|done]. split; [done|].
        intros (uri' & name & ? & _ & Hc'). simplify_eq. congruence.
  - rewrite Hne. split_and!; [|by right|done].
    split; [done|]. by intros (uri & name & ? & _).
Qed.

Lemma health_after_connectDB_witness :
  App.health_database
    (fst (App.health 1700000000123 (App.connectDB good_driver (boot mongo_env))))
  = "Connected" /\
  App.health_database
    (fst (App.health 1700000000123 (App.connectDB bad_driver (boot mongo_env))))
  = "Disconnected".
Proof.
  split.
  - apply (health_after_connectDB good_driver (boot mongo_env) 1700000000123);
      [discriminate|].
    exists "mongodb://localhost:27017/usermngtservice", "usermngtservice".
    split; [reflexivity|]. split; [discriminate|reflexivity].
  - destruct (health_after_connectDB bad_driver (boot mongo_env) 1700000000123)
      as (Hiff & [Hc | Hd] & _); [discriminate| |exact Hd].
    apply Hiff in Hc as (uri & name & _ & _ & Hc). discriminate Hc.
Defined.

(** X12.  [SIGINT] always ends the process.  It closes the connection exactly
    when the connection is ready.  The exit code is 0 with the
    connection no longer ready, unless closing was attempted and
    rejected: then the rejection of the unawaited listener reaches the
    [unhandledRejection] listener, which exits with 1. *)
Theorem SIGINT_always_exits D p :
  (exit_code (App.on_SIGINT D p) = Some 0 /\
   readyState (App.on_SIGINT D p) <> 1 /\
   (readyState p <> 1 \/ close_error D = None)) \/
  (exit_code (App.on_SIGINT D p) = Some 1 /\
   readyState p = 1 /\ exists error, close_error D = Some error).
Proof.
  unfold App.on_SIGINT, mongoose_close, App.on_unhandledRejection; simpl.
  destruct (Z.eqb_spec (readyState p) 1) as [H1|H1].
  - destruct (close_error D) as [error|]; simpl.
    + right. eauto.
    + left. split_and!; [done|done|by right].
  - left. simpl. split_and!; [done|done|by left].
Qed.
